(** * World Cup winners dashboard ([wc_winner.py])

    A shallow embedding of the data frame built by
    [create_worldcup_dataset], of the module-level aggregate [win_counts]
    and of the Dash callback [update_dashboard], followed by the
    properties of the rendered figure and of the two text panels. *)

From Stdlib Require Import Ascii.
From stdpp Require Import base decidable option list sorting strings pretty gmap fin_maps.

Set Warnings "-register-all".

Local Open Scope string_scope.
Local Open Scope Z_scope.
Local Open Scope list_scope.

(** ** Exceptions

    The two places where the Python code can raise: [pd.DataFrame] on
    columns of different lengths, and [values[0]] on an empty selection. *)

Inductive exn : Type :=
  | ValueError
  | IndexError.

Inductive result (A : Type) : Type :=
  | Ok (a : A)
  | Raise (e : exn).

Arguments Ok {A} a.
Arguments Raise {A} e.

Global Instance result_bind : MBind result := λ A B k m,
  match m with
  | Ok a => k a
  | Raise e => Raise e
  end.

(** ** Data frames *)

(** A row of the frame returned by [create_worldcup_dataset]. *)
Record RawRow : Type := mkRawRow {
  raw_Year : Z;
  raw_Winner : string;
  raw_Runner_up : string;
  raw_Score : string
}.

(** A row of the module-level [worldcup_df], after the two code columns
    have been added; a missing key of [Series.map] gives NaN, here [None]. *)
Record Row : Type := mkRow {
  Year : Z;
  Winner : string;
  Runner_up : string;
  Score : string;
  Winner_Code : option string;
  Runner_up_Code : option string
}.

(** A row of [win_counts]. *)
Record WinCount : Type := mkWinCount {
  Country : string;
  Wins : nat;
  Code : option string
}.

Global Instance RawRow_eq_dec : EqDecision RawRow.
Proof. solve_decision. Defined.
Global Instance Row_eq_dec : EqDecision Row.
Proof. solve_decision. Defined.
Global Instance WinCount_eq_dec : EqDecision WinCount.
Proof. solve_decision. Defined.

(** [pd.DataFrame(data)] on the four columns of the dictionary: the rows
    are read off position by position, and columns of different lengths
    are refused. *)
Fixpoint zip_columns (ys : list Z) (ws rs ss : list string) : list RawRow :=
  match ys, ws, rs, ss with
  | y :: ys', w :: ws', r :: rs', s :: ss' =>
      mkRawRow y w r s :: zip_columns ys' ws' rs' ss'
  | _, _, _, _ => []
  end.

Definition DataFrame (ys : list Z) (ws rs ss : list string) : result (list RawRow) :=
  if decide (length ws = length ys ∧ length rs = length ys ∧ length ss = length ys)
  then Ok (zip_columns ys ws rs ss)
  else Raise ValueError.

(** [df.replace({old: new})]: every cell equal to [old] becomes [new].
    The integer column has no cell equal to a string. *)
Definition replace_cell (old new s : string) : string :=
  if decide (s = old) then new else s.

Definition replace_row (old new : string) (r : RawRow) : RawRow :=
  mkRawRow (raw_Year r)
           (replace_cell old new (raw_Winner r))
           (replace_cell old new (raw_Runner_up r))
           (replace_cell old new (raw_Score r)).

Definition replace (old new : string) (df : list RawRow) : list RawRow :=
  replace_row old new <$> df.

(** ** The dataset *)

Definition data_Year : list Z :=
  [1930; 1934; 1938; 1950; 1954; 1958; 1962; 1966; 1970; 1974;
   1978; 1982; 1986; 1990; 1994; 1998; 2002; 2006; 2010; 2014; 2018; 2022].

Definition data_Winner : list string :=
  ["Uruguay"; "Italy"; "Italy"; "Uruguay"; "West Germany"; "Brazil";
   "Brazil"; "England"; "Brazil"; "West Germany"; "Argentina";
   "Italy"; "Argentina"; "West Germany"; "Brazil"; "France";
   "Brazil"; "Italy"; "Spain"; "Germany"; "France"; "Argentina"].

Definition data_Runner_up : list string :=
  ["Argentina"; "Czechoslovakia"; "Hungary"; "Brazil"; "Hungary";
   "Sweden"; "Czechoslovakia"; "West Germany"; "Italy";
   "Netherlands"; "Netherlands"; "West Germany"; "West Germany";
   "Argentina"; "Italy"; "Brazil"; "Germany"; "France";
   "Netherlands"; "Argentina"; "Croatia"; "France"].

Definition data_Score : list string :=
  ["4-2"; "2-1 (a.e.t.)"; "4-2"; "2-1"; "3-2"; "5-2"; "3-1"; "4-2 (a.e.t.)";
   "4-1"; "2-1"; "3-1 (a.e.t.)"; "3-1"; "3-2"; "1-0"; "0-0 (a.e.t.) (3-2 p.)";
   "3-0"; "2-0"; "1-1 (a.e.t.) (5-3 p.)"; "1-0 (a.e.t.)"; "1-0 (a.e.t.)";
   "4-2"; "3-3 (a.e.t.) (4-2 p.)"].

(** The frame as [pd.DataFrame(data)] builds it, before the replacement. *)
Definition raw_dataset : result (list RawRow) :=
  DataFrame data_Year data_Winner data_Runner_up data_Score.

Definition create_worldcup_dataset : result (list RawRow) :=
  df ← raw_dataset;
  Ok (replace "West Germany" "Germany" df).

(** ** Country codes *)

Definition country_codes : gmap string string :=
  list_to_map
    [("Argentina", "ARG"); ("Brazil", "BRA"); ("England", "GBR");
     ("France", "FRA"); ("Germany", "DEU"); ("Italy", "ITA");
     ("Spain", "ESP"); ("Uruguay", "URY"); ("Czechoslovakia", "CZE");
     ("Hungary", "HUN"); ("Sweden", "SWE"); ("Netherlands", "NLD");
     ("Croatia", "HRV")].

(** [worldcup_df['Winner_Code'] = worldcup_df['Winner'].map(codes)] and the
    same for the runner-up. *)
Definition add_codes (codes : gmap string string) (r : RawRow) : Row :=
  mkRow (raw_Year r) (raw_Winner r) (raw_Runner_up r) (raw_Score r)
        (codes !! raw_Winner r) (codes !! raw_Runner_up r).

(** ** Win counts *)

(** One step of the counting table of [value_counts]: a key already seen
    has its count incremented in place, a new key is appended. *)
Fixpoint count_key (x : string) (acc : list (string * nat)) : list (string * nat) :=
  match acc with
  | [] => [(x, 1%nat)]
  | (k, n) :: acc' =>
      if decide (k = x) then (k, S n) :: acc' else (k, n) :: count_key x acc'
  end.

Definition count_table (l : list string) : list (string * nat) :=
  foldl (λ acc x, count_key x acc) [] l.

(** The descending sort of [value_counts]. Entries with equal counts are
    kept in their order of first appearance; pandas leaves the order of
    ties open, and the properties below use the sort only as a
    permutation of the counting table. *)
Fixpoint insert_desc (e : string * nat) (l : list (string * nat)) : list (string * nat) :=
  match l with
  | [] => [e]
  | h :: t => if decide (h.2 ≤ e.2)%nat then e :: l else h :: insert_desc e t
  end.

Definition sort_desc (l : list (string * nat)) : list (string * nat) :=
  foldr insert_desc [] l.

Definition value_counts (l : list string) : list (string * nat) :=
  sort_desc (count_table l).

(** [win_counts]: the counts of the [Winner] column with the columns
    renamed and the [Code] column added. *)
Definition make_win_counts (codes : gmap string string) (df : list Row) : list WinCount :=
  (λ e, mkWinCount e.1 e.2 (codes !! e.1)) <$> value_counts (Winner <$> df).

(** ** Module state

    The three module-level values the callback reads. *)
Record Globals : Type := mkGlobals {
  g_worldcup_df : list Row;
  g_country_codes : gmap string string;
  g_win_counts : list WinCount
}.

(** The aggregate is derived from the frame once, at load time. *)
Definition derive (codes : gmap string string) (df : list Row) : Globals :=
  mkGlobals df codes (make_win_counts codes df).

Definition load (codes : gmap string string) (raw : list RawRow) : Globals :=
  derive codes (add_codes codes <$> raw).

Definition module_init : result Globals :=
  raw ← create_worldcup_dataset;
  Ok (load country_codes raw).

Definition from_result {A : Type} (d : A) (m : result A) : A :=
  match m with
  | Ok a => a
  | Raise _ => d
  end.

Definition shipped : Globals :=
  from_result (mkGlobals [] ∅ []) module_init.

Definition worldcup_df : list Row := g_worldcup_df shipped.
Definition win_counts : list WinCount := g_win_counts shipped.

(** ** Rendered output *)

(** The children of the two [html.Div] outputs: the initial value of a
    panel is the empty Python string, a filled panel is an [html.Div]. *)
Inductive Component : Type :=
  | Text (s : string)
  | H3 (children : string)
  | P (children : string)
  | Div (children : list Component).

Inductive Colorscale : Type :=
  | Plasma
  | Stops (stops : list (Z * string)).

(** A choropleth trace: one location, one value and one hover name per
    row of the frame it is drawn from. *)
Record Trace : Type := mkTrace {
  locations : list (option string);
  z : list nat;
  hover_name : list string;
  colorscale : Colorscale;
  showscale : bool;
  hoverinfo : option string
}.

Record Figure : Type := mkFigure {
  data : list Trace;
  title : string;
  showcoastlines : bool;
  coastlinecolor : string;
  margin : list (string * Z)
}.

(** [px.choropleth(frame, locations="Code", color="Wins",
    hover_name="Country", ...)] *)
Definition px_choropleth (frame : list WinCount) (ttl : string) : Figure :=
  mkFigure
    [mkTrace (Code <$> frame) (Wins <$> frame) (Country <$> frame) Plasma true None]
    ttl false "" [].

Definition update_geos (coast : bool) (color : string) (fig : Figure) : Figure :=
  mkFigure (data fig) (title fig) coast color (margin fig).

Definition update_layout (m : list (string * Z)) (fig : Figure) : Figure :=
  mkFigure (data fig) (title fig) (showcoastlines fig) (coastlinecolor fig) m.

Definition add_trace (t : Trace) (fig : Figure) : Figure :=
  mkFigure (data fig ++ [t]) (title fig) (showcoastlines fig) (coastlinecolor fig)
           (margin fig).

(** [go.Choropleth(locations=..., z=..., colorscale=[[0,'red'],[1,'red']],
    showscale=False, hoverinfo='none')] *)
Definition go_Choropleth (locs : list (option string)) (zs : list nat) : Trace :=
  mkTrace locs zs [] (Stops [(0, "red"); (1, "red")]) false (Some "none").

(** ** Python helpers *)

(** Truth value of an optional string and of an optional integer: [None],
    the empty string and zero are false. *)
Definition truthy_str (o : option string) : bool :=
  match o with
  | Some s => bool_decide (s ≠ "")
  | None => false
  end.

Definition truthy_int (o : option Z) : bool :=
  match o with
  | Some n => bool_decide (n ≠ 0)
  | None => false
  end.

(** What an f-string prints for the two selections. *)
Definition format_str (o : option string) : string := default "None" o.
Definition format_int (o : option Z) : string := default "None" (pretty <$> o).

(** [df.empty] *)
Definition empty {A : Type} (df : list A) : bool :=
  match df with
  | [] => true
  | _ :: _ => false
  end.

(** [series.values[0]] *)
Definition values_0 {A : Type} (col : list A) : result A :=
  match col with
  | x :: _ => Ok x
  | [] => Raise IndexError
  end.

(** [sorted] on a column of integers *)
Definition sorted (l : list Z) : list Z := merge_sort Z.le l.

(** [sep.join(l)] *)
Fixpoint join (sep : string) (l : list string) : string :=
  match l with
  | [] => ""
  | x :: l' =>
      match l' with
      | [] => x
      | _ :: _ => x +:+ sep +:+ join sep l'
      end
  end.

(** ** The callback *)

Definition update_dashboard (g : Globals) (selected_country : option string)
    (selected_year : option Z) : result (Figure * Component * Component) :=
  let win_counts := g_win_counts g in
  let worldcup_df := g_worldcup_df g in
  (* Default map shows all winners *)
  let fig := px_choropleth win_counts "FIFA World Cup Wins by Country" in
  let fig := update_geos true "Black" fig in
  let fig := update_layout [("r", 0); ("t", 30); ("l", 0); ("b", 0)] fig in
  (* Highlight selected country if one is chosen *)
  let fig :=
    if truthy_str selected_country then
      let country_data :=
        filter (λ wc, Some (Country wc) = selected_country) win_counts in
      if negb (empty country_data) then
        add_trace (go_Choropleth (Code <$> country_data) (Wins <$> country_data)) fig
      else fig
    else fig in
  (* Country info output *)
  let country_output := Text "" in
  let country_output :=
    if truthy_str selected_country then
      let wins := filter (λ r, Some (Winner r) = selected_country) worldcup_df in
      if negb (empty wins) then
        let win_years := join ", " (pretty <$> sorted (Year <$> wins)) in
        Div [H3 (format_str selected_country +:+ " World Cup Wins");
             P ("Total Wins: " +:+ pretty (length wins));
             P ("Years Won: " +:+ win_years)]
      else country_output
    else country_output in
  (* Year info output *)
  let year_output := Text "" in
  year_output ←
    (if truthy_int selected_year then
       let final := filter (λ r, Some (Year r) = selected_year) worldcup_df in
       if negb (empty final) then
         w ← values_0 (Winner <$> final);
         r ← values_0 (Runner_up <$> final);
         s ← values_0 (Score <$> final);
         Ok (Div [H3 (format_int selected_year +:+ " World Cup Final");
                  P ("Winner: " +:+ w);
                  P ("Runner-up: " +:+ r);
                  P ("Score: " +:+ s)])
       else Ok year_output
     else Ok year_output);
  Ok (fig, country_output, year_output).

(** ** Vocabulary of the statements *)

(** Number of records won by [c]. *)
Definition wins_of (df : list Row) (c : string) : nat :=
  length (filter (λ r, Winner r = c) df).

(** The base layer of the map and the figure that holds only it. *)
Definition base_trace (wc : list WinCount) : Trace :=
  mkTrace (Code <$> wc) (Wins <$> wc) (Country <$> wc) Plasma true None.

Definition base_figure (wc : list WinCount) (traces : list Trace) : Figure :=
  mkFigure (base_trace wc :: traces) "FIFA World Cup Wins by Country" true "Black"
           [("r", 0); ("t", 30); ("l", 0); ("b", 0)].

(** The two filled panels. *)
Definition country_div (c : string) (n : nat) (years : list Z) : Component :=
  Div [H3 (c +:+ " World Cup Wins");
       P ("Total Wins: " +:+ pretty n);
       P ("Years Won: " +:+ join ", " (pretty <$> years))].

Definition year_div (y : Z) (w r s : string) : Component :=
  Div [H3 (pretty y +:+ " World Cup Final");
       P ("Winner: " +:+ w);
       P ("Runner-up: " +:+ r);
       P ("Score: " +:+ s)].

(** The three outputs of the callback, one at a time; [update_dashboard_eq]
    below shows that the callback returns exactly these. *)

(** The traces added on top of the base layer. *)
Definition highlight (g : Globals) (selected_country : option string) : list Trace :=
  match selected_country with
  | Some c =>
      if decide (c = "") then []
      else match filter (λ wc, Country wc = c) (g_win_counts g) with
           | [] => []
           | cd => [go_Choropleth (Code <$> cd) (Wins <$> cd)]
           end
  | None => []
  end.

Definition country_panel (g : Globals) (selected_country : option string) : Component :=
  match selected_country with
  | Some c =>
      if decide (c = "") then Text ""
      else match filter (λ r, Winner r = c) (g_worldcup_df g) with
           | [] => Text ""
           | wins => country_div c (length wins) (sorted (Year <$> wins))
           end
  | None => Text ""
  end.

Definition year_panel (g : Globals) (selected_year : option Z) : Component :=
  match selected_year with
  | Some y =>
      if decide (y = 0) then Text ""
      else match filter (λ r, Year r = y) (g_worldcup_df g) with
           | [] => Text ""
           | r :: _ => year_div y (Winner r) (Runner_up r) (Score r)
           end
  | None => Text ""
  end.

(** The records of the shipped frame before the code columns are added. *)
Definition shipped_raw : list RawRow := from_result [] create_worldcup_dataset.

(** ** Layout

    The two dropdowns of [app.layout]; the rest of the layout is static
    markup. *)

Record DropdownOption (V : Type) : Type := mkOption {
  label : V;
  value : V
}.

Arguments mkOption {V} label value.
Arguments label {V} _.
Arguments value {V} _.

Record Dropdown (V : Type) : Type := mkDropdown {
  dropdown_id : string;
  options : list (DropdownOption V);
  placeholder : string;
  clearable : bool
}.

Arguments mkDropdown {V} dropdown_id options placeholder clearable.
Arguments dropdown_id {V} _.
Arguments options {V} _.
Arguments placeholder {V} _.
Arguments clearable {V} _.

(** [series.unique()]: the distinct values in order of first appearance. *)
Definition unique (l : list string) : list string :=
  foldl (λ acc x, if decide (x ∈ acc) then acc else acc ++ [x]) [] l.

(** [sorted] on strings (code point order) and [sorted(..., reverse=True)]
    on integers. *)
Definition sorted_str (l : list string) : list string := merge_sort String.le l.
Definition sorted_reverse (l : list Z) : list Z := merge_sort Z.ge l.

Definition country_dropdown (df : list Row) : Dropdown string :=
  mkDropdown "country-dropdown"
    ((λ country, mkOption country country) <$> sorted_str (unique (Winner <$> df)))
    "Select a country to view its wins" true.

Definition year_dropdown (df : list Row) : Dropdown Z :=
  mkDropdown "year-dropdown"
    ((λ year, mkOption year year) <$> sorted_reverse (Year <$> df))
    "Select a year to view the finalists" true.

(** A string without a comma: what [str] prints for an integer, so that
    the separator of [join] cannot be mistaken for part of an entry. *)
Fixpoint comma_free (s : string) : Prop :=
  match s with
  | EmptyString => True
  | String a s' => a ≠ ","%char ∧ comma_free s'
  end.

(** * Properties *)

(** ** Lists *)

Section list_facts.
Context {A B : Type}.

Lemma filter_fmap (f : A → B) (P : B → Prop) `{!∀ y, Decision (P y)} (l : list A) :
  filter P (f <$> l) = f <$> filter (λ x, P (f x)) l.
Proof.
  induction l as [|x l IH]; [done|].
  rewrite fmap_cons, !filter_cons. destruct (decide (P (f x))); simpl; by rewrite IH.
Qed.

Lemma empty_false (l : list A) : empty l = false ↔ l ≠ [].
Proof. by destruct l. Qed.

Lemma empty_filter (P : A → Prop) `{!∀ x, Decision (P x)} (l : list A) :
  empty (filter P l) = false ↔ ∃ x, x ∈ l ∧ P x.
Proof.
  rewrite empty_false. split.
  - intros Hne. destruct (filter P l) as [|x k] eqn:E; [done|].
    exists x. apply and_comm, (list_elem_of_filter P). rewrite E. left.
  - intros (x & Hx & HP) E. eapply filter_nil_not_elem_of; eauto.
Qed.

Lemma filter_key_NoDup `{EqDecision B} (f : A → B) (l : list A) (x : A) :
  NoDup (f <$> l) → x ∈ l → filter (λ x', f x' = f x) l = [x].
Proof.
  induction l as [|a l IH]; [by intros _ ?%elem_of_nil|].
  rewrite fmap_cons, NoDup_cons. intros [Ha Hl] [<-|Hx]%elem_of_cons.
  - rewrite filter_cons_True by done. f_equal.
    destruct (filter (λ x', f x' = f x) l) as [|b k] eqn:E; [done|].
    assert (b ∈ filter (λ x', f x' = f x) l) as Hb by (rewrite E; left).
    apply list_elem_of_filter in Hb as [Hfb Hb].
    destruct Ha. rewrite <-Hfb. by apply list_elem_of_fmap_2.
  - rewrite filter_cons_False; [by apply IH|].
    intros Hfa. destruct Ha. rewrite Hfa. by apply list_elem_of_fmap_2.
Qed.

Lemma values_0_fmap (f : A → B) (x : A) (l : list A) :
  values_0 (f <$> x :: l) = Ok (f x).
Proof. done. Qed.
End list_facts.

(** ** Counting table *)

Section counting.
Implicit Types (x c : string) (acc : list (string * nat)) (l : list string).

Lemma count_key_keys x acc :
  (count_key x acc).*1 = if decide (x ∈ acc.*1) then acc.*1 else acc.*1 ++ [x].
Proof.
  induction acc as [|[k n] acc IH].
  - done.
  - cbn [count_key]. destruct (decide (k = x)) as [->|Hne].
    + rewrite !fmap_cons. simpl. rewrite decide_True; [done|]. left.
    + rewrite !fmap_cons, IH. simpl. destruct (decide (x ∈ acc.*1)) as [Hin|Hin].
      * rewrite decide_True; [done|]. by right.
      * rewrite decide_False; [done|]. rewrite elem_of_cons. by intros [->|?].
Qed.

Lemma count_key_sum x acc :
  sum_list_with snd (count_key x acc) = S (sum_list_with snd acc).
Proof.
  induction acc as [|[k n] acc IH]; simpl; [done|].
  destruct (decide (k = x)); simpl; [done|]. rewrite IH. lia.
Qed.

Lemma count_key_other x c acc :
  c ≠ x → filter (λ e, e.1 = c) (count_key x acc) = filter (λ e, e.1 = c) acc.
Proof.
  intros Hne. induction acc as [|[k n] acc IH]; simpl.
  - by rewrite filter_cons_False.
  - destruct (decide (k = x)) as [->|Hk].
    + rewrite !filter_cons_False; naive_solver.
    + rewrite !filter_cons, IH. done.
Qed.

Lemma count_key_same x acc :
  filter (λ e, e.1 = x) (count_key x acc) =
    match filter (λ e, e.1 = x) acc with
    | [] => [(x, 1%nat)]
    | e :: t => (e.1, S e.2) :: t
    end.
Proof.
  induction acc as [|[k n] acc IH]; simpl.
  - by rewrite filter_cons_True.
  - destruct (decide (k = x)) as [->|Hk].
    + by rewrite !filter_cons_True.
    + rewrite !filter_cons_False by done. done.
Qed.

Lemma count_table_snoc l x : count_table (l ++ [x]) = count_key x (count_table l).
Proof. unfold count_table. by rewrite foldl_snoc. Qed.

Lemma count_table_keys l c : c ∈ (count_table l).*1 ↔ c ∈ l.
Proof.
  induction l as [|x l IH] using rev_ind; [done|].
  rewrite count_table_snoc, count_key_keys, elem_of_app, list_elem_of_singleton.
  destruct (decide (x ∈ (count_table l).*1)) as [Hin|Hin].
  - rewrite IH. split; [tauto|]. intros [?| ->]; [done|]. by apply IH.
  - by rewrite elem_of_app, list_elem_of_singleton, IH.
Qed.

Lemma count_table_NoDup l : NoDup (count_table l).*1.
Proof.
  induction l as [|x l IH] using rev_ind; [constructor|].
  rewrite count_table_snoc, count_key_keys.
  destruct (decide (x ∈ (count_table l).*1)) as [Hin|Hin]; [done|].
  apply NoDup_app. split_and!; [done| |apply NoDup_singleton].
  intros y Hy ->%list_elem_of_singleton. done.
Qed.

Lemma count_table_sum l : sum_list_with snd (count_table l) = length l.
Proof.
  induction l as [|x l IH] using rev_ind; [done|].
  rewrite count_table_snoc, count_key_sum, IH, length_app. simpl. lia.
Qed.

(** The table holds, for every key of the column, exactly one entry,
    carrying the number of occurrences of the key. *)
Lemma count_table_entry l c :
  filter (λ e, e.1 = c) (count_table l) =
    if decide (c ∈ l) then [(c, length (filter (λ x, x = c) l))] else [].
Proof.
  induction l as [|x l IH] using rev_ind.
  - rewrite decide_False; [done|]. apply not_elem_of_nil.
  - rewrite count_table_snoc, filter_app, length_app.
    destruct (decide (c = x)) as [->|Hne].
    + rewrite count_key_same, IH, filter_cons_True, filter_nil by done.
      rewrite (decide_True (P := x ∈ l ++ [x])) by (rewrite elem_of_app, list_elem_of_singleton; tauto).
      destruct (decide (x ∈ l)) as [Hin|Hin]; simpl.
      * do 2 f_equal. lia.
      * do 2 f_equal.
        destruct (filter (λ y, y = x) l) as [|y k] eqn:E; [done|].
        exfalso. assert (y ∈ filter (λ y, y = x) l) as Hy by (rewrite E; left).
        apply list_elem_of_filter in Hy as [-> ?]. done.
    + rewrite count_key_other, IH, filter_cons_False, filter_nil by done.
      simpl. rewrite Nat.add_0_r.
      destruct (decide (c ∈ l)) as [Hin|Hin].
      * rewrite decide_True; [done|]. rewrite elem_of_app. tauto.
      * rewrite decide_False; [done|].
        rewrite elem_of_app, list_elem_of_singleton. tauto.
Qed.

Lemma insert_desc_Permutation e acc : insert_desc e acc ≡ₚ e :: acc.
Proof.
  induction acc as [|h t IH]; simpl; [done|].
  destruct (decide (h.2 ≤ e.2)%nat); [done|]. rewrite IH. apply Permutation_swap.
Qed.

Lemma sort_desc_Permutation acc : sort_desc acc ≡ₚ acc.
Proof.
  induction acc as [|e acc IH]; simpl; [done|].
  by rewrite insert_desc_Permutation, IH.
Qed.

Lemma value_counts_Permutation l : value_counts l ≡ₚ count_table l.
Proof. apply sort_desc_Permutation. Qed.

Lemma value_counts_entry l c :
  filter (λ e, e.1 = c) (value_counts l) =
    if decide (c ∈ l) then [(c, length (filter (λ x, x = c) l))] else [].
Proof.
  pose proof (count_table_entry l c) as E.
  assert (filter (λ e, e.1 = c) (value_counts l) ≡ₚ filter (λ e, e.1 = c) (count_table l)) as HP
    by (by rewrite value_counts_Permutation).
  rewrite E in HP. destruct (decide (c ∈ l)).
  - by apply Permutation_singleton_r.
  - by apply Permutation_nil_r.
Qed.
End counting.

(** ** The aggregate *)

Section aggregate.
Variables (codes : gmap string string) (df : list Row).

Lemma wins_of_column c :
  length (filter (λ x, x = c) (Winner <$> df)) = wins_of df c.
Proof. unfold wins_of. by rewrite filter_fmap, length_fmap. Qed.

Lemma wins_of_pos c : c ∈ Winner <$> df ↔ (0 < wins_of df c)%nat.
Proof.
  unfold wins_of. split.
  - intros (r & -> & Hr)%list_elem_of_fmap.
    destruct (filter (λ r0, Winner r0 = Winner r) df) as [|? ?] eqn:E; simpl; [|lia].
    exfalso. by eapply (filter_nil_not_elem_of (λ r0, Winner r0 = Winner r)).
  - destruct (filter (λ r, Winner r = c) df) as [|r k] eqn:E; simpl; [lia|]. intros _.
    assert (r ∈ filter (λ r, Winner r = c) df) as Hr by (rewrite E; left).
    apply list_elem_of_filter in Hr as [<- Hr]. by apply list_elem_of_fmap_2.
Qed.

Lemma sum_list_with_fmap {X Y : Type} (f : Y → nat) (h : X → Y) (l : list X) :
  sum_list_with f (h <$> l) = sum_list_with (f ∘ h) l.
Proof. induction l as [|x l IH]; [done|]. rewrite fmap_cons. simpl. by f_equal. Qed.

(** The rows of [win_counts] for one country: a single row when the
    country won, none otherwise. *)
Lemma win_counts_row c :
  filter (λ wc, Country wc = c) (make_win_counts codes df) =
    if decide (c ∈ Winner <$> df)
    then [mkWinCount c (wins_of df c) (codes !! c)] else [].
Proof.
  unfold make_win_counts. rewrite filter_fmap. simpl.
  rewrite (value_counts_entry (Winner <$> df) c).
  destruct (decide (c ∈ Winner <$> df)); [|done].
  simpl. by rewrite wins_of_column.
Qed.

Lemma win_counts_countries :
  Country <$> make_win_counts codes df ≡ₚ (count_table (Winner <$> df)).*1.
Proof.
  unfold make_win_counts. rewrite <-list_fmap_compose.
  by rewrite value_counts_Permutation.
Qed.

Lemma win_counts_NoDup : NoDup (Country <$> make_win_counts codes df).
Proof. rewrite win_counts_countries. apply count_table_NoDup. Qed.

Lemma win_counts_winner c :
  c ∈ Country <$> make_win_counts codes df ↔ c ∈ Winner <$> df.
Proof. rewrite win_counts_countries. apply count_table_keys. Qed.

Lemma win_counts_sum : sum_list_with Wins (make_win_counts codes df) = length df.
Proof.
  unfold make_win_counts. rewrite sum_list_with_fmap.
  change (Wins ∘ _) with (snd : string * nat → nat).
  rewrite value_counts_Permutation, count_table_sum. apply length_fmap.
Qed.

Lemma win_counts_elem wc :
  wc ∈ make_win_counts codes df ↔
    Country wc ∈ Winner <$> df ∧ wc = mkWinCount (Country wc) (wins_of df (Country wc)) (codes !! Country wc).
Proof.
  pose proof (win_counts_row (Country wc)) as E. split.
  - intros Hin.
    assert (wc ∈ filter (λ wc', Country wc' = Country wc) (make_win_counts codes df)) as Hf
      by (by apply list_elem_of_filter).
    rewrite E in Hf. destruct (decide (Country wc ∈ Winner <$> df)).
    + by apply list_elem_of_singleton in Hf.
    + by apply elem_of_nil in Hf.
  - intros [Hc Hwc]. rewrite decide_True in E by done.
    assert (wc ∈ filter (λ wc', Country wc' = Country wc) (make_win_counts codes df)) as Hf
      by (rewrite E, <-Hwc; left).
    by apply list_elem_of_filter in Hf as [_ ?].
Qed.
End aggregate.

(** ** The three outputs of the callback, one at a time *)

Section outputs.
Variable g : Globals.

Lemma filter_Some {X Y : Type} `{EqDecision Y} (f : X → Y) (y : Y) (l : list X) :
  filter (λ x, Some (f x) = Some y) l = filter (λ x, f x = y) l.
Proof. apply list_filter_iff. intros x. split; congruence. Qed.

(** The callback never raises, and its result is the triple of the
    three outputs above. *)
Lemma update_dashboard_eq c y :
  update_dashboard g c y =
    Ok (base_figure (g_win_counts g) (highlight g c), country_panel g c, year_panel g y).
Proof.
  unfold update_dashboard, highlight, country_panel, year_panel.
  assert (∀ (A : Type) (m : result A) (k : A → result (Figure * Component * Component)) a,
    m = Ok a → (m ≫= k) = k a) as Hbind by (by intros ???? ->).
  set (yo := (if truthy_int y then _ else _) : result Component).
  assert (yo = Ok (year_panel g y)) as Hyo.
  { subst yo. unfold year_panel. destruct y as [n|]; simpl; [|done].
    rewrite filter_Some. destruct (decide (n = 0)) as [->|Hn].
    - by rewrite bool_decide_false by naive_solver.
    - rewrite bool_decide_true by done.
      by destruct (filter (λ r, Year r = n) (g_worldcup_df g)). }
  rewrite (Hbind _ _ _ _ Hyo). unfold year_panel. do 3 f_equal.
  - destruct c as [s|]; simpl; [|done]. rewrite filter_Some.
    destruct (decide (s = "")) as [->|Hs].
    + by rewrite bool_decide_false by naive_solver.
    + rewrite bool_decide_true by done.
      by destruct (filter (λ wc, Country wc = s) (g_win_counts g)).
  - destruct c as [s|]; simpl; [|done]. rewrite filter_Some.
    destruct (decide (s = "")) as [->|Hs].
    + by rewrite bool_decide_false by naive_solver.
    + rewrite bool_decide_true by done.
      by destruct (filter (λ r, Winner r = s) (g_worldcup_df g)).
Qed.
End outputs.

(** ** [sorted] *)

Lemma sorted_Sorted (l : list Z) : Sorted Z.le (sorted l).
Proof. apply (Sorted_merge_sort Z.le). Qed.

Lemma sorted_Permutation (l : list Z) : sorted l ≡ₚ l.
Proof. apply merge_sort_Permutation. Qed.

Lemma sorted_length (l : list Z) : length (sorted l) = length l.
Proof. by rewrite sorted_Permutation. Qed.

(** The result of [sorted] does not depend on the order of its argument. *)
Lemma sorted_order_irrelevant (l1 l2 : list Z) : l1 ≡ₚ l2 → sorted l1 = sorted l2.
Proof.
  intros HP. apply (Sorted_unique Z.le); [apply sorted_Sorted..|].
  by rewrite !sorted_Permutation.
Qed.

(** ** The country panel *)

Section country_panel_facts.
Variable g : Globals.
Let df := g_worldcup_df g.

Lemma country_panel_winner c :
  c ≠ "" → c ∈ Winner <$> df →
  country_panel g (Some c) =
    country_div c (wins_of df c) (sorted (Year <$> filter (λ r, Winner r = c) df)).
Proof.
  intros Hc Hin. unfold country_panel. rewrite decide_False by done.
  apply wins_of_pos in Hin. unfold wins_of in *. fold df.
  destruct (filter (λ r, Winner r = c) df); [simpl in Hin; lia|done].
Qed.

Lemma country_panel_unmatched c :
  c ∉ Winner <$> df → country_panel g (Some c) = Text "".
Proof.
  intros Hin. unfold country_panel. destruct (decide (c = "")); [done|].
  rewrite wins_of_pos in Hin. unfold wins_of in Hin. fold df.
  destruct (filter (λ r, Winner r = c) df); [done|simpl in Hin; lia].
Qed.
End country_panel_facts.

(** ** The year panel *)

Section year_panel_facts.
Variable g : Globals.
Let df := g_worldcup_df g.

Lemma year_panel_record r :
  NoDup (Year <$> df) → r ∈ df → Year r ≠ 0 →
  year_panel g (Some (Year r)) = year_div (Year r) (Winner r) (Runner_up r) (Score r).
Proof.
  intros Hnd Hr Hy. unfold year_panel. rewrite decide_False by done.
  fold df. by rewrite (filter_key_NoDup Year df r).
Qed.

Lemma year_panel_unmatched y : y ∉ Year <$> df → year_panel g (Some y) = Text "".
Proof.
  intros Hin. unfold year_panel. destruct (decide (y = 0)); [done|]. fold df.
  destruct (filter (λ r, Year r = y) df) as [|r k] eqn:E; [done|].
  assert (r ∈ filter (λ r, Year r = y) df) as Hr by (rewrite E; left).
  apply list_elem_of_filter in Hr as [<- Hr]. destruct Hin. by apply list_elem_of_fmap_2.
Qed.
End year_panel_facts.

(** ** The shipped dataset *)

Lemma create_worldcup_dataset_ok : create_worldcup_dataset = Ok shipped_raw.
Proof. reflexivity. Qed.

Lemma module_init_ok : module_init = Ok shipped.
Proof. reflexivity. Qed.

Lemma shipped_derive : shipped = derive country_codes worldcup_df.
Proof. reflexivity. Qed.

Lemma worldcup_df_years_NoDup : NoDup (Year <$> worldcup_df).
Proof. apply (bool_decide_unpack _). by vm_compute. Qed.

Lemma worldcup_df_years_nonzero : Forall (λ r, Year r ≠ 0) worldcup_df.
Proof. apply (bool_decide_unpack _). by vm_compute. Qed.

Lemma worldcup_df_winners_nonempty : Forall (λ c, c ≠ "") (Winner <$> worldcup_df).
Proof. apply (bool_decide_unpack _). by vm_compute. Qed.

Example win_counts_shipped :
  win_counts =
    [mkWinCount "Brazil" 5 (Some "BRA"); mkWinCount "Italy" 4 (Some "ITA");
     mkWinCount "Germany" 4 (Some "DEU"); mkWinCount "Argentina" 3 (Some "ARG");
     mkWinCount "Uruguay" 2 (Some "URY"); mkWinCount "France" 2 (Some "FRA");
     mkWinCount "England" 1 (Some "GBR"); mkWinCount "Spain" 1 (Some "ESP")].
Proof. reflexivity. Qed.

Example runner_up_only_selected :
  update_dashboard shipped (Some "Hungary") (Some 2000) =
    Ok (base_figure win_counts [], Text "", Text "").
Proof. reflexivity. Qed.

Example empty_name_and_year_zero :
  update_dashboard shipped (Some "") (Some 0) =
    Ok (base_figure win_counts [], Text "", Text "").
Proof. reflexivity. Qed.

Example unequal_columns_refused :
  DataFrame [1930; 1934] ["Uruguay"] ["Argentina"; "Czechoslovakia"] ["4-2"; "2-1"]
    = Raise ValueError.
Proof. reflexivity. Qed.

Example sorted_years : sorted [2002; 1958; 1994; 1970; 1962] = [1958; 1962; 1970; 1994; 2002].
Proof. reflexivity. Qed.

Example join_years : join ", " ["1934"; "1938"; "1982"] = "1934, 1938, 1982".
Proof. reflexivity. Qed.

(** ** The highlight trace *)

Section highlight_facts.
Variables (codes : gmap string string) (df : list Row).

Lemma highlight_winner c :
  c ≠ "" → c ∈ Winner <$> df →
  highlight (derive codes df) (Some c) = [go_Choropleth [codes !! c] [wins_of df c]].
Proof.
  intros Hc Hin. unfold highlight. rewrite decide_False by done. simpl.
  by rewrite win_counts_row, decide_True.
Qed.

Lemma highlight_unmatched c :
  c ∉ Winner <$> df → highlight (derive codes df) (Some c) = [].
Proof.
  intros Hin. unfold highlight. destruct (decide (c = "")); [done|]. simpl.
  by rewrite win_counts_row, decide_False.
Qed.
End highlight_facts.

(** ** Loading under another code mapping *)

Section load_facts.
Variables (codes : gmap string string) (raw : list RawRow).

Lemma load_Winner : Winner <$> g_worldcup_df (load codes raw) = raw_Winner <$> raw.
Proof. simpl. by rewrite <-list_fmap_compose. Qed.

Lemma load_Year : Year <$> g_worldcup_df (load codes raw) = raw_Year <$> raw.
Proof. simpl. by rewrite <-list_fmap_compose. Qed.

(** The country panel read off the raw records: the code mapping does
    not occur in it. *)
Lemma country_panel_load c :
  country_panel (load codes raw) (Some c) =
    if decide (c = "") then Text ""
    else match filter (λ r, raw_Winner r = c) raw with
         | [] => Text ""
         | wins => country_div c (length wins) (sorted (raw_Year <$> wins))
         end.
Proof.
  unfold country_panel. destruct (decide (c = "")); [done|].
  change (g_worldcup_df (load codes raw)) with (add_codes codes <$> raw).
  rewrite filter_fmap.
  change (λ r, Winner (add_codes codes r) = c) with (λ r, raw_Winner r = c).
  destruct (filter (λ r, raw_Winner r = c) raw) as [|r k]; [done|].
  rewrite fmap_cons. cbn iota. rewrite <-(fmap_cons (add_codes codes)).
  rewrite <-list_fmap_compose, length_fmap. done.
Qed.
End load_facts.

(** ** The text of the country panel

    The line of years is read back without loss: the printed integers hold
    no comma, so the joined text determines the list. *)

Lemma pretty_N_char_not_comma (x : N) : pretty_N_char x ≠ ","%char.
Proof. unfold pretty_N_char. by repeat case_match. Qed.

Lemma pretty_N_go_comma_free (x : N) (s : string) :
  comma_free s → comma_free (pretty_N_go x s).
Proof.
  revert s. induction (N.lt_wf_0 x) as [x _ IH]; intros s Hs.
  assert (x = 0 ∨ 0 < x)%N as [->|Hx] by lia; [by rewrite pretty_N_go_0|].
  rewrite pretty_N_go_step by done. apply IH; [by apply N.div_lt|].
  split; [apply pretty_N_char_not_comma|done].
Qed.

Lemma pretty_N_go_nonempty (x : N) (s : string) : s ≠ "" → pretty_N_go x s ≠ "".
Proof.
  revert s. induction (N.lt_wf_0 x) as [x _ IH]; intros s Hs.
  assert (x = 0 ∨ 0 < x)%N as [->|Hx] by lia; [by rewrite pretty_N_go_0|].
  rewrite pretty_N_go_step by done. apply IH; [by apply N.div_lt|done].
Qed.

Lemma pretty_N_comma_free (x : N) : comma_free (pretty x) ∧ pretty x ≠ "".
Proof.
  unfold pretty, pretty_N. destruct (decide (x = 0%N)) as [->|Hx].
  - by repeat split.
  - split; [by apply pretty_N_go_comma_free|].
    rewrite pretty_N_go_step by lia. by apply pretty_N_go_nonempty.
Qed.

Lemma pretty_Z_comma_free (y : Z) : comma_free (pretty y) ∧ pretty y ≠ "".
Proof.
  destruct y as [|p|p]; unfold pretty, pretty_Z.
  - by repeat split.
  - apply pretty_N_comma_free.
  - split; [|done]. split; [done|]. apply pretty_N_comma_free.
Qed.

Lemma app_nil_l (s : string) : "" +:+ s = s.
Proof. done. Qed.

Lemma app_cons (a : ascii) (s t : string) : String a s +:+ t = String a (s +:+ t).
Proof. done. Qed.

Lemma comma_free_app_inj (s t u v : string) :
  comma_free s → comma_free t →
  s +:+ String "," u = t +:+ String "," v → s = t ∧ u = v.
Proof.
  revert t. induction s as [|a s IH]; intros [|b t] Hs Ht Heq;
    rewrite ?app_nil_l, ?app_cons in Heq; simplify_eq.
  - done.
  - by destruct Ht as [[] _].
  - by destruct Hs as [[] _].
  - destruct Hs as [_ Hs], Ht as [_ Ht].
    destruct (IH t) as [-> ->]; done.
Qed.

Lemma comma_free_no_separator (s t v : string) :
  comma_free s → s ≠ t +:+ String "," v.
Proof.
  revert s. induction t as [|b t IH]; intros [|a s] Hs Heq;
    rewrite ?app_nil_l, ?app_cons in Heq; simplify_eq.
  - by destruct Hs as [[] _].
  - destruct Hs as [_ Hs]. by eapply IH.
Qed.

Lemma join_cons_cons (sep x y : string) (l : list string) :
  join sep (x :: y :: l) = x +:+ sep +:+ join sep (y :: l).
Proof. done. Qed.

(** [", ".join] loses nothing on entries that are non-empty and hold no
    comma. *)
Lemma join_inj (l k : list string) :
  Forall (λ s, comma_free s ∧ s ≠ "") l →
  Forall (λ s, comma_free s ∧ s ≠ "") k →
  join ", " l = join ", " k → l = k.
Proof.
  intros Hl. revert k. induction Hl as [|x l [Hx Hxne] Hl IH]; intros k Hk Heq.
  - destruct Hk as [|y k [Hy Hyne] Hk]; [done|]. exfalso.
    destruct k as [|y' k]; [by simplify_eq/=|].
    rewrite join_cons_cons in Heq. destruct y; simplify_eq/=.
  - destruct Hk as [|y k [Hy Hyne] Hk].
    + exfalso. destruct l as [|x' l]; [by simplify_eq/=|].
      rewrite join_cons_cons in Heq. destruct x; simplify_eq/=.
    + destruct l as [|x' l], k as [|y' k].
      * by simplify_eq/=.
      * exfalso. rewrite join_cons_cons in Heq. simpl in Heq.
        by eapply (comma_free_no_separator x y).
      * exfalso. rewrite join_cons_cons in Heq. simpl in Heq.
        by eapply (comma_free_no_separator y x).
      * rewrite !join_cons_cons in Heq.
        apply comma_free_app_inj in Heq as [-> Heq]; [|done..].
        f_equal. apply IH; [done|]. by simplify_eq.
Qed.

(** The filled country panel determines the total and the list of years
    it displays. *)
Lemma country_div_inj (c : string) (n n' : nat) (years years' : list Z) :
  country_div c n years = country_div c n' years' → n = n' ∧ years = years'.
Proof.
  unfold country_div. intros Heq. simplify_eq. split; [done|].
  match goal with H : join _ _ = join _ _ |- _ => apply join_inj in H end.
  - match goal with H : pretty <$> _ = _ |- _ => by apply (inj (fmap pretty)) in H end.
  - apply Forall_fmap, Forall_true. intros y. apply pretty_Z_comma_free.
  - apply Forall_fmap, Forall_true. intros y. apply pretty_Z_comma_free.
Qed.

(** * Claims *)

(** C1. For every country [c] that appears as a winner, in whatever order
    the records of the dataset are stored, the callback with
    [selected_country = c] returns a country panel whose total is the
    [Wins] entry of [c] in [win_counts], a positive number, and whose years
    are sorted ascending, as many as that entry, the years of the records
    won by [c], and the same list as for the shipped order. The text of
    the panel displays that total and that list and no other: a panel with
    the same text has the same total and the same years. *)
Theorem country_panel_total_and_years (df : list Row) (c : string) (y : option Z) :
  df ≡ₚ worldcup_df →
  c ∈ Winner <$> df →
  ∃ fig yo years,
    update_dashboard (derive country_codes df) (Some c) y
      = Ok (fig, country_div c (wins_of df c) years, yo)
    ∧ (∀ n' years',
         country_div c n' years' = country_div c (wins_of df c) years →
         n' = wins_of df c ∧ years' = years)
    ∧ mkWinCount c (wins_of df c) (country_codes !! c) ∈ make_win_counts country_codes df
    ∧ (0 < wins_of df c)%nat
    ∧ Sorted Z.le years
    ∧ length years = wins_of df c
    ∧ years ≡ₚ Year <$> filter (λ r, Winner r = c) df
    ∧ years = sorted (Year <$> filter (λ r, Winner r = c) worldcup_df).
Proof.
  intros HP Hc.
  assert (c ≠ "") as Hne.
  { pose proof worldcup_df_winners_nonempty as HF.
    rewrite Forall_forall in HF. apply HF. by rewrite <-HP. }
  eexists _, _, (sorted (Year <$> filter (λ r, Winner r = c) df)).
  split_and!.
  - rewrite update_dashboard_eq. by rewrite country_panel_winner.
  - intros n' years' Heq. by apply country_div_inj in Heq.
  - by apply win_counts_elem.
  - by apply wins_of_pos.
  - apply sorted_Sorted.
  - by rewrite sorted_length, length_fmap.
  - apply sorted_Permutation.
  - apply sorted_order_irrelevant. by rewrite HP.
Qed.

Lemma country_panel_total_and_years_witness :
  ∃ fig yo years,
    update_dashboard (derive country_codes (reverse worldcup_df)) (Some "Italy") None
      = Ok (fig, country_div "Italy" (wins_of (reverse worldcup_df) "Italy") years, yo)
    ∧ (∀ n' years',
         country_div "Italy" n' years'
           = country_div "Italy" (wins_of (reverse worldcup_df) "Italy") years →
         n' = wins_of (reverse worldcup_df) "Italy" ∧ years' = years)
    ∧ mkWinCount "Italy" (wins_of (reverse worldcup_df) "Italy") (country_codes !! "Italy")
        ∈ make_win_counts country_codes (reverse worldcup_df)
    ∧ (0 < wins_of (reverse worldcup_df) "Italy")%nat
    ∧ Sorted Z.le years
    ∧ length years = wins_of (reverse worldcup_df) "Italy"
    ∧ years ≡ₚ Year <$> filter (λ r, Winner r = "Italy") (reverse worldcup_df)
    ∧ years = sorted (Year <$> filter (λ r, Winner r = "Italy") worldcup_df).
Proof.
  apply (country_panel_total_and_years (reverse worldcup_df) "Italy" None).
  - apply reverse_Permutation.
  - apply (bool_decide_unpack _). vm_compute. exact I.
Defined.

(** C2. For every year [y] of the dataset, the callback with
    [selected_year = y] returns a year panel that carries the winner, the
    runner-up and the score of the record of that year, character for
    character, whatever the selected country. *)
Theorem year_panel_verbatim (r : Row) (c : option string) :
  r ∈ worldcup_df →
  ∃ fig co,
    update_dashboard shipped c (Some (Year r))
      = Ok (fig, co, year_div (Year r) (Winner r) (Runner_up r) (Score r)).
Proof.
  intros Hr. eexists _, _. rewrite update_dashboard_eq.
  rewrite year_panel_record; [done|apply worldcup_df_years_NoDup|done|].
  pose proof worldcup_df_years_nonzero as HF. rewrite Forall_forall in HF. by apply HF.
Qed.

Lemma year_panel_verbatim_witness :
  ∃ fig co,
    update_dashboard shipped (Some "Spain")
        (Some (Year (mkRow 1966 "England" "Germany" "4-2 (a.e.t.)" (Some "GBR") (Some "DEU"))))
      = Ok (fig, co, year_div 1966 "England" "Germany" "4-2 (a.e.t.)").
Proof.
  apply (year_panel_verbatim
           (mkRow 1966 "England" "Germany" "4-2 (a.e.t.)" (Some "GBR") (Some "DEU"))
           (Some "Spain")).
  apply (bool_decide_unpack _). vm_compute. exact I.
Defined.

(** C3. [win_counts] has one row per distinct winner, each carrying the
    number of records won by its country, and its [Wins] column sums to the
    number of records; the shipped frame has 22 records and its aggregate
    sums to 22. *)
Theorem win_counts_sum_is_record_count :
  (∀ codes df,
     NoDup (Country <$> make_win_counts codes df)
     ∧ (∀ c, c ∈ Country <$> make_win_counts codes df ↔ c ∈ Winner <$> df)
     ∧ Forall (λ wc, Wins wc = wins_of df (Country wc)) (make_win_counts codes df)
     ∧ sum_list_with Wins (make_win_counts codes df) = length df)
  ∧ win_counts = make_win_counts country_codes worldcup_df
  ∧ length worldcup_df = 22%nat
  ∧ length win_counts = 8%nat
  ∧ sum_list_with Wins win_counts = 22%nat.
Proof.
  split_and!; [|done..].
  intros codes df. split_and!.
  - apply win_counts_NoDup.
  - apply win_counts_winner.
  - apply Forall_forall. intros wc [_ ->]%win_counts_elem. done.
  - apply win_counts_sum.
Qed.

(** C4 (as stated, refuted). A selected country whose code does not
    resolve still gets its highlight trace: with the entry of Brazil
    removed from the mapping, selecting Brazil returns a figure of two
    traces, not the base layer alone. *)
Lemma highlight_without_code_counterexample :
  ∃ fig co yo,
    delete "Brazil" country_codes !! "Brazil" = None
    ∧ update_dashboard (load (delete "Brazil" country_codes) shipped_raw)
        (Some "Brazil") None = Ok (fig, co, yo)
    ∧ data fig ≠ [base_trace (g_win_counts (load (delete "Brazil" country_codes) shipped_raw))]
    ∧ drop 1 (data fig) = [go_Choropleth [None] [5%nat]].
Proof.
  eexists _, _, _. split_and!.
  - by vm_compute.
  - rewrite update_dashboard_eq. reflexivity.
  - intros H. apply (f_equal length) in H. vm_compute in H. discriminate.
  - by vm_compute.
Qed.

(** C4 (amended). The highlight trace is added exactly when the selected
    country is a non-empty name with a row in [win_counts], that is with at
    least one win, whether or not its code resolves; its only location is
    the code of the country, absent when the code does not resolve. The
    country panel is filled for exactly the same countries and is the same
    under every code mapping. *)
Theorem highlight_follows_win_counts (codes : gmap string string)
    (raw : list RawRow) (c : string) (y : option Z) :
  ∃ fig co yo,
    update_dashboard (load codes raw) (Some c) y = Ok (fig, co, yo)
    ∧ data fig =
        base_trace (g_win_counts (load codes raw)) ::
        (if decide (c ≠ "" ∧ c ∈ raw_Winner <$> raw)
         then [go_Choropleth [codes !! c] [wins_of (g_worldcup_df (load codes raw)) c]]
         else [])
    ∧ (codes !! c = None → c ≠ "" → c ∈ raw_Winner <$> raw →
       drop 1 (data fig) =
         [go_Choropleth [None] [wins_of (g_worldcup_df (load codes raw)) c]])
    ∧ (co ≠ Text "" ↔ c ≠ "" ∧ c ∈ raw_Winner <$> raw)
    ∧ (∀ codes', ∃ fig' yo',
         update_dashboard (load codes' raw) (Some c) y = Ok (fig', co, yo')).
Proof.
  eexists _, _, _. split; [apply update_dashboard_eq|].
  assert (data (base_figure (g_win_counts (load codes raw))
                  (highlight (load codes raw) (Some c))) =
          base_trace (g_win_counts (load codes raw)) ::
          (if decide (c ≠ "" ∧ c ∈ raw_Winner <$> raw)
           then [go_Choropleth [codes !! c] [wins_of (g_worldcup_df (load codes raw)) c]]
           else [])) as Hdata.
  { unfold base_figure. cbn [data]. f_equal. unfold load.
    set (df := add_codes codes <$> raw).
    assert (raw_Winner <$> raw = Winner <$> df) as -> by (symmetry; apply load_Winner).
    destruct (decide (c ≠ "" ∧ c ∈ Winner <$> df)) as [[Hc Hin]|Hn].
    - by rewrite highlight_winner.
    - destruct (decide (c = "")) as [->|Hc]; [done|].
      apply highlight_unmatched. naive_solver. }
  split_and!.
  - exact Hdata.
  - intros Hcode Hc Hin. rewrite Hdata, decide_True by done. simpl. by rewrite Hcode.
  - rewrite <-load_Winner with (codes := codes). split.
    + intros Hco. destruct (decide (c = "")) as [->|Hc]; [done|].
      split; [done|]. destruct (decide (c ∈ Winner <$> g_worldcup_df (load codes raw))); [done|].
      by rewrite country_panel_unmatched in Hco.
    + intros [Hc Hin]. by rewrite country_panel_winner.
  - intros codes'. eexists _, _. rewrite update_dashboard_eq.
    by rewrite (country_panel_load codes), <-(country_panel_load codes').
Qed.

(** C5. The callback returns a result on every pair of selections, never
    an exception, on the shipped module state and on every loaded dataset:
    a country that matches no winner (or no selection) leaves the country
    panel empty and the map at its base layer, a year that matches no
    record (or no selection) leaves the year panel empty, and a selected
    country whose code does not resolve leaves the map at its base layer,
    with no trace laid over it. The last point holds on the shipped state
    and on every dataset whose winners all resolve. *)
Theorem update_dashboard_never_raises :
  (∀ (c : option string) (y : option Z),
     ∃ fig co yo,
       update_dashboard shipped c y = Ok (fig, co, yo)
       ∧ (∀ s, c = Some s → s ∉ Winner <$> worldcup_df →
            co = Text "" ∧ data fig = [base_trace win_counts])
       ∧ (c = None → co = Text "" ∧ data fig = [base_trace win_counts])
       ∧ (∀ n, y = Some n → n ∉ Year <$> worldcup_df → yo = Text "")
       ∧ (y = None → yo = Text "")
       ∧ (∀ s, c = Some s → country_codes !! s = None →
            data fig = [base_trace win_counts]))
  ∧ (∀ (codes : gmap string string) (raw : list RawRow)
       (c : option string) (y : option Z),
       ∃ fig co yo,
         update_dashboard (load codes raw) c y = Ok (fig, co, yo)
         ∧ (∀ s, c = Some s → s ∉ raw_Winner <$> raw →
              co = Text "" ∧ data fig = [base_trace (g_win_counts (load codes raw))])
         ∧ (c = None →
              co = Text "" ∧ data fig = [base_trace (g_win_counts (load codes raw))])
         ∧ (∀ n, y = Some n → n ∉ raw_Year <$> raw → yo = Text "")
         ∧ (y = None → yo = Text "")
         ∧ (∀ s, c = Some s → codes !! s = None →
              Forall (λ w, is_Some (codes !! w)) (raw_Winner <$> raw) →
              data fig = [base_trace (g_win_counts (load codes raw))])).
Proof.
  assert (∀ (codes : gmap string string) (raw : list RawRow)
            (c : option string) (y : option Z),
            ∃ fig co yo,
              update_dashboard (load codes raw) c y = Ok (fig, co, yo)
              ∧ (∀ s, c = Some s → s ∉ raw_Winner <$> raw →
                   co = Text "" ∧ data fig = [base_trace (g_win_counts (load codes raw))])
              ∧ (c = None →
                   co = Text "" ∧ data fig = [base_trace (g_win_counts (load codes raw))])
              ∧ (∀ n, y = Some n → n ∉ raw_Year <$> raw → yo = Text "")
              ∧ (y = None → yo = Text "")
              ∧ (∀ s, c = Some s → codes !! s = None →
                   Forall (λ w, is_Some (codes !! w)) (raw_Winner <$> raw) →
                   data fig = [base_trace (g_win_counts (load codes raw))])) as Hload.
  { intros codes raw c y.
    eexists _, _, _. split; [apply update_dashboard_eq|].
    assert (∀ s, s ∉ raw_Winner <$> raw →
              data (base_figure (g_win_counts (load codes raw))
                      (highlight (load codes raw) (Some s)))
              = [base_trace (g_win_counts (load codes raw))]) as Hbase.
    { intros s Hs. rewrite <-(load_Winner codes) in Hs.
      unfold base_figure. cbn [data]. f_equal. by apply highlight_unmatched. }
    split_and!.
    - intros s -> Hs. split; [|by apply Hbase].
      rewrite <-(load_Winner codes) in Hs. by apply country_panel_unmatched.
    - by intros ->.
    - intros n -> Hn. rewrite <-(load_Year codes) in Hn. by apply year_panel_unmatched.
    - by intros ->.
    - intros s -> Hcode Hall. apply Hbase. intros Hs.
      rewrite Forall_forall in Hall. apply Hall in Hs as [code Hs]. congruence. }
  split; [|exact Hload].
  intros c y. destruct (Hload country_codes shipped_raw c y)
    as (fig & co & yo & Heq & Hc & Hnone & Hy & Hynone & Hcode).
  exists fig, co, yo. split; [exact Heq|]. split_and!.
  - intros s -> Hs. apply (Hc s eq_refl). by rewrite <-(load_Winner country_codes).
  - exact Hnone.
  - intros n -> Hn. apply (Hy n eq_refl). by rewrite <-(load_Year country_codes).
  - exact Hynone.
  - intros s -> Hs. apply (Hcode s eq_refl Hs).
    apply (bool_decide_unpack _). by vm_compute.
Qed.

(** C6. The keys of [country_codes] are exactly the names found in the
    winner and runner-up columns of the dataset after the merge; every
    code has three letters, and every record has both its codes. *)
Theorem country_codes_cover_finalists :
  (∀ c, is_Some (country_codes !! c) ↔
        c ∈ (Winner <$> worldcup_df) ++ (Runner_up <$> worldcup_df))
  ∧ map_Forall (λ _ code, String.length code = 3%nat) country_codes
  ∧ Forall (λ r, is_Some (Winner_Code r) ∧ is_Some (Runner_up_Code r)) worldcup_df
  ∧ Forall (λ wc, is_Some (Code wc)) win_counts.
Proof.
  split_and!.
  - intros c. rewrite <-elem_of_dom.
    assert (dom country_codes =@{gset string}
            list_to_set ((Winner <$> worldcup_df) ++ (Runner_up <$> worldcup_df))) as ->
      by (apply (bool_decide_unpack _); by vm_compute).
    apply elem_of_list_to_set.
  - apply (bool_decide_unpack _). by vm_compute.
  - apply (bool_decide_unpack _). by vm_compute.
  - apply (bool_decide_unpack _). by vm_compute.
Qed.

(** C7. After construction no record names "West Germany" as winner or
    runner-up: [replace] turns every such cell into "Germany" and leaves
    every other name, and every year, as it was; on the shipped columns the
    scores are left as they were too. *)
Theorem west_germany_merged_into_germany :
  (∀ raw,
     Forall (λ r, raw_Winner r ≠ "West Germany" ∧ raw_Runner_up r ≠ "West Germany")
            (replace "West Germany" "Germany" raw)
     ∧ Forall2 (λ r r',
          raw_Year r' = raw_Year r
          ∧ raw_Winner r' =
              (if decide (raw_Winner r = "West Germany") then "Germany" else raw_Winner r)
          ∧ raw_Runner_up r' =
              (if decide (raw_Runner_up r = "West Germany") then "Germany"
               else raw_Runner_up r))
          raw (replace "West Germany" "Germany" raw))
  ∧ (∃ unmerged,
       raw_dataset = Ok unmerged
       ∧ create_worldcup_dataset = Ok (replace "West Germany" "Germany" unmerged)
       ∧ Forall2 (λ r r', raw_Score r' = raw_Score r)
                 unmerged (replace "West Germany" "Germany" unmerged)
       ∧ raw_Year <$> filter (λ r, raw_Winner r = "West Germany") unmerged
           = [1954; 1974; 1990]
       ∧ raw_Year <$> filter (λ r, raw_Runner_up r = "West Germany") unmerged
           = [1966; 1982; 1986])
  ∧ Forall (λ r, Winner r ≠ "West Germany" ∧ Runner_up r ≠ "West Germany") worldcup_df.
Proof.
  split_and!.
  - intros raw. split.
    + unfold replace. apply Forall_fmap, Forall_true. intros r. simpl.
      unfold replace_cell. split; case_decide; done.
    + unfold replace. apply Forall2_fmap_r, Forall2_same_length_lookup_2; [done|].
      intros i r r' Hr Hr'. simplify_eq. done.
  - eexists. split; [reflexivity|]. split; [reflexivity|]. split_and!.
    + apply (bool_decide_unpack _). by vm_compute.
    + by vm_compute.
    + by vm_compute.
  - apply (bool_decide_unpack _). by vm_compute.
Qed.

(** C8. On the shipped dataset: Brazil has the panel "Total Wins: 5" with
    the years 1958, 1962, 1970, 1994, 2002; the year 2022 has winner
    Argentina, runner-up France and score "3-3 (a.e.t.) (4-2 p.)"; the
    year 1990, entered as a win of West Germany, has winner Germany. *)
Theorem shipped_scenarios :
  (∃ fig yo,
     update_dashboard shipped (Some "Brazil") None =
       Ok (fig,
           Div [H3 "Brazil World Cup Wins";
                P "Total Wins: 5";
                P "Years Won: 1958, 1962, 1970, 1994, 2002"],
           yo))
  ∧ (∃ fig co,
       update_dashboard shipped None (Some 2022) =
         Ok (fig, co,
             Div [H3 "2022 World Cup Final";
                  P "Winner: Argentina";
                  P "Runner-up: France";
                  P "Score: 3-3 (a.e.t.) (4-2 p.)"]))
  ∧ (∃ fig co,
       update_dashboard shipped None (Some 1990) =
         Ok (fig, co,
             Div [H3 "1990 World Cup Final";
                  P "Winner: Germany";
                  P "Runner-up: Argentina";
                  P "Score: 1-0"]))
  ∧ raw_dataset ≫= (λ df, Ok (filter (λ r, raw_Year r = 1990) df))
      = Ok [mkRawRow 1990 "West Germany" "Argentina" "1-0"].
Proof.
  split_and!; [eexists _, _; by vm_compute..|by vm_compute].
Qed.

(** C9. With no country and no year selected the figure holds the base
    layer alone and both panels are empty. *)
Theorem no_selection_base_map_only (g : Globals) :
  update_dashboard g None None =
    Ok (base_figure (g_win_counts g) [], Text "", Text "")
  ∧ data (base_figure (g_win_counts g) []) = [base_trace (g_win_counts g)].
Proof. split; reflexivity. Qed.

(** C10. The selectors do not interfere: the year panel is the same for
    every selected country, and the figure (base layer and highlight) and
    the country panel are the same for every selected year. *)
Theorem selectors_do_not_interfere (g : Globals) (c : option string) (y : option Z) :
  ∃ fig co yo,
    update_dashboard g c y = Ok (fig, co, yo)
    ∧ (∀ c', ∃ fig' co', update_dashboard g c' y = Ok (fig', co', yo))
    ∧ (∀ y', ∃ yo', update_dashboard g c y' = Ok (fig, co, yo')).
Proof.
  eexists _, _, _. split; [apply update_dashboard_eq|]. split.
  - intros c'. eexists _, _. apply update_dashboard_eq.
  - intros y'. eexists. apply update_dashboard_eq.
Qed.

(** * Further properties *)

(** ** Construction of the frame *)

(** X2. Replacing a name by another one twice is the same as replacing it
    once. *)
Theorem replace_idempotent (old new : string) (df : list RawRow) :
  old ≠ new →
  replace old new (replace old new df) = replace old new df.
Proof.
  intros Hne. unfold replace. rewrite <-list_fmap_compose.
  apply list_fmap_ext. intros _ [y w r s] _. unfold replace_row, replace_cell. simpl.
  f_equal; repeat case_decide; congruence.
Qed.

Lemma replace_idempotent_witness :
  replace "West Germany" "Germany"
    (replace "West Germany" "Germany"
       [mkRawRow 1954 "West Germany" "Hungary" "3-2";
        mkRawRow 1966 "England" "West Germany" "4-2 (a.e.t.)"])
  = replace "West Germany" "Germany"
      [mkRawRow 1954 "West Germany" "Hungary" "3-2";
       mkRawRow 1966 "England" "West Germany" "4-2 (a.e.t.)"].
Proof.
  apply (replace_idempotent "West Germany" "Germany"
           [mkRawRow 1954 "West Germany" "Hungary" "3-2";
            mkRawRow 1966 "England" "West Germany" "4-2 (a.e.t.)"]).
  discriminate.
Defined.

(** ** Order of the aggregate *)

Lemma insert_desc_Sorted (e : string * nat) (l : list (string * nat)) :
  Sorted (λ a b, (b.2 ≤ a.2)%nat) l → Sorted (λ a b, (b.2 ≤ a.2)%nat) (insert_desc e l).
Proof.
  induction 1 as [|h t Ht IH Hhd]; simpl.
  - repeat constructor.
  - destruct (decide (h.2 ≤ e.2)%nat) as [Hle|Hgt].
    + constructor; [by constructor|]. by constructor.
    + constructor; [done|]. destruct Hhd as [|b t' Hb]; simpl.
      * constructor. lia.
      * destruct (decide (b.2 ≤ e.2)%nat); constructor; [lia|done].
Qed.

Lemma sort_desc_Sorted (l : list (string * nat)) :
  Sorted (λ a b, (b.2 ≤ a.2)%nat) (sort_desc l).
Proof.
  induction l as [|e l IH]; simpl; [constructor|]. by apply insert_desc_Sorted.
Qed.

(** X3. The rows of [win_counts] come in descending order of [Wins], and
    every row counts at least one win and at most as many as there are
    records. *)
Theorem win_counts_descending (codes : gmap string string) (df : list Row) :
  Sorted (λ a b, (Wins b ≤ Wins a)%nat) (make_win_counts codes df)
  ∧ Forall (λ wc, (1 ≤ Wins wc ≤ length df)%nat) (make_win_counts codes df).
Proof.
  split.
  - unfold make_win_counts.
    apply Sorted_fmap with (R1 := λ a b : string * nat, (b.2 ≤ a.2)%nat); [done|].
    apply sort_desc_Sorted.
  - apply Forall_forall. intros wc Hwc.
    apply win_counts_elem in Hwc as [Hin ->]. simpl.
    apply wins_of_pos in Hin. split; [lia|]. apply length_filter.
Qed.

(** X4. Whatever is selected, the base layer of the returned figure shows
    every winning country once, each with the code the mapping gives it
    (absent when it gives none) and with the number of records it won. *)
Theorem base_layer_pairs_country_code_wins (codes : gmap string string)
    (raw : list RawRow) (c : option string) (y : option Z) :
  ∃ base overlay fig_title co yo coast color m,
    update_dashboard (load codes raw) c y
      = Ok (mkFigure (base :: overlay) fig_title coast color m, co, yo)
    ∧ NoDup (hover_name base)
    ∧ (∀ name, name ∈ hover_name base ↔ name ∈ raw_Winner <$> raw)
    ∧ locations base = (λ name, codes !! name) <$> hover_name base
    ∧ z base = (λ name, length (filter (λ r, raw_Winner r = name) raw)) <$> hover_name base.
Proof.
  eexists _, _, _, _, _, _, _, _. split; [apply update_dashboard_eq|].
  cbn [hover_name locations z base_trace]. unfold load. cbn [g_win_counts derive].
  set (df := add_codes codes <$> raw).
  assert (∀ name, wins_of df name = length (filter (λ r, raw_Winner r = name) raw)) as Hw.
  { intros name. unfold wins_of, df. by rewrite filter_fmap, length_fmap. }
  split_and!.
  - apply win_counts_NoDup.
  - intros name. rewrite win_counts_winner. unfold df. by rewrite <-list_fmap_compose.
  - rewrite <-list_fmap_compose. apply list_fmap_ext.
    intros _ wc [_ ->]%list_elem_of_lookup_2%win_counts_elem. done.
  - rewrite <-list_fmap_compose. apply list_fmap_ext.
    intros _ wc [_ ->]%list_elem_of_lookup_2%win_counts_elem. simpl. apply Hw.
Qed.

(** ** The dropdowns *)

Lemma unique_snoc (l : list string) (x : string) :
  unique (l ++ [x]) = if decide (x ∈ unique l) then unique l else unique l ++ [x].
Proof. unfold unique. by rewrite foldl_snoc. Qed.

(** [unique] lists the keys of the counting table, in the same order. *)
Lemma unique_count_table (l : list string) : unique l = (count_table l).*1.
Proof.
  induction l as [|x l IH] using rev_ind; [done|].
  by rewrite unique_snoc, count_table_snoc, count_key_keys, IH.
Qed.

Lemma option_values {V : Type} (l : list V) :
  value <$> ((λ v, mkOption v v) <$> l) = l.
Proof. rewrite <-list_fmap_compose. apply list_fmap_id. Qed.

Local Instance Z_ge_total : Total Z.ge.
Proof. intros x y. lia. Qed.

(** X5. The country dropdown offers every winner of the frame exactly
    once, in ascending order of the names, each under its own name as
    label; these are the countries of [win_counts]. *)
Theorem country_dropdown_offers_winners (codes : gmap string string) (df : list Row) :
  Sorted String.le (value <$> options (country_dropdown df))
  ∧ NoDup (value <$> options (country_dropdown df))
  ∧ (∀ c, c ∈ value <$> options (country_dropdown df) ↔ c ∈ Winner <$> df)
  ∧ value <$> options (country_dropdown df) ≡ₚ Country <$> make_win_counts codes df
  ∧ Forall (λ o, label o = value o) (options (country_dropdown df)).
Proof.
  cbn [country_dropdown options]. rewrite option_values.
  assert (sorted_str (unique (Winner <$> df)) ≡ₚ (count_table (Winner <$> df)).*1) as HP.
  { unfold sorted_str. by rewrite merge_sort_Permutation, unique_count_table. }
  split_and!.
  - apply (Sorted_merge_sort String.le).
  - rewrite HP. apply count_table_NoDup.
  - intros c. rewrite HP. apply count_table_keys.
  - by rewrite HP, win_counts_countries.
  - by apply Forall_fmap, Forall_true.
Qed.

(** X6. The year dropdown offers one option per record of the frame, the
    years in descending order, each under its own number as label. *)
Theorem year_dropdown_offers_years (df : list Row) :
  Sorted Z.ge (value <$> options (year_dropdown df))
  ∧ value <$> options (year_dropdown df) ≡ₚ Year <$> df
  ∧ length (options (year_dropdown df)) = length df
  ∧ Forall (λ o, label o = value o) (options (year_dropdown df)).
Proof.
  cbn [year_dropdown options]. rewrite option_values. split_and!.
  - apply (Sorted_merge_sort Z.ge).
  - apply merge_sort_Permutation.
  - unfold sorted_reverse. by rewrite length_fmap, merge_sort_Permutation, length_fmap.
  - by apply Forall_fmap, Forall_true.
Qed.

(** X7. The callback fills the country panel exactly for the values of
    the country dropdown other than the empty name, and the year panel
    exactly for the values of the year dropdown other than zero; an empty
    name and a zero year count as no selection even when the frame has a
    record for them. *)
Theorem panels_filled_iff_offered (g : Globals) (c : string) (y : Z) :
  ∃ fig co yo,
    update_dashboard g (Some c) (Some y) = Ok (fig, co, yo)
    ∧ (co ≠ Text "" ↔
       c ≠ "" ∧ c ∈ value <$> options (country_dropdown (g_worldcup_df g)))
    ∧ (yo ≠ Text "" ↔
       y ≠ 0 ∧ y ∈ value <$> options (year_dropdown (g_worldcup_df g))).
Proof.
  eexists _, _, _. split; [apply update_dashboard_eq|].
  cbn [country_dropdown year_dropdown options]. rewrite !option_values.
  unfold sorted_str, sorted_reverse.
  rewrite !merge_sort_Permutation, unique_count_table, count_table_keys.
  split.
  - split.
    + intros Hco. destruct (decide (c = "")) as [->|Hc]; [done|]. split; [done|].
      destruct (decide (c ∈ Winner <$> g_worldcup_df g)); [done|].
      by rewrite country_panel_unmatched in Hco.
    + intros [Hc Hin]. by rewrite country_panel_winner.
  - split.
    + intros Hyo. destruct (decide (y = 0)) as [->|Hy]; [done|]. split; [done|].
      destruct (decide (y ∈ Year <$> g_worldcup_df g)); [done|].
      by rewrite year_panel_unmatched in Hyo.
    + intros [Hy (r & -> & Hr)%list_elem_of_fmap]. unfold year_panel.
      rewrite decide_False by done.
      destruct (filter (λ r0, Year r0 = Year r) (g_worldcup_df g)) as [|r' k] eqn:E; [|done].
      exfalso. by eapply (filter_nil_not_elem_of (λ r0, Year r0 = Year r)).
Qed.

(** ** Records that share a year *)

(** X8. When several records carry the selected year, the year panel shows
    the one that comes first in the frame. *)
Theorem year_panel_first_record (g : Globals) (c : option string)
    (before after : list Row) (r : Row) :
  g_worldcup_df g = before ++ r :: after →
  Forall (λ r', Year r' ≠ Year r) before →
  Year r ≠ 0 →
  ∃ fig co,
    update_dashboard g c (Some (Year r))
      = Ok (fig, co, year_div (Year r) (Winner r) (Runner_up r) (Score r)).
Proof.
  intros Hdf Hbefore Hy. eexists _, _. rewrite update_dashboard_eq. do 2 f_equal.
  unfold year_panel. rewrite decide_False by done. rewrite Hdf, filter_app.
  assert (filter (λ r', Year r' = Year r) before = []) as ->.
  { clear Hdf. induction Hbefore as [|r' k Hr' _ IH]; [done|]. by rewrite filter_cons_False. }
  by rewrite filter_cons_True.
Qed.

Lemma year_panel_first_record_witness :
  ∃ fig co,
    update_dashboard
      (derive ∅ [mkRow 1934 "Italy" "Czechoslovakia" "2-1 (a.e.t.)" None None;
                 mkRow 1930 "Uruguay" "Argentina" "4-2" None None;
                 mkRow 1930 "Brazil" "Sweden" "5-2" None None])
      None (Some (Year (mkRow 1930 "Uruguay" "Argentina" "4-2" None None)))
    = Ok (fig, co, year_div 1930 "Uruguay" "Argentina" "4-2").
Proof.
  apply (year_panel_first_record
           (derive ∅ [mkRow 1934 "Italy" "Czechoslovakia" "2-1 (a.e.t.)" None None;
                      mkRow 1930 "Uruguay" "Argentina" "4-2" None None;
                      mkRow 1930 "Brazil" "Sweden" "5-2" None None])
           None
           [mkRow 1934 "Italy" "Czechoslovakia" "2-1 (a.e.t.)" None None]
           [mkRow 1930 "Brazil" "Sweden" "5-2" None None]
           (mkRow 1930 "Uruguay" "Argentina" "4-2" None None)).
  - reflexivity.
  - repeat constructor. simpl. lia.
  - simpl. lia.
Defined.

(** ** Order of the records *)

Section record_order.
Variables (codes : gmap string string) (df df' : list Row).
Hypothesis Hperm : df ≡ₚ df'.

Lemma wins_of_Permutation c : wins_of df c = wins_of df' c.
Proof. unfold wins_of. by rewrite Hperm. Qed.

Lemma winner_Permutation s : s ∈ Winner <$> df ↔ s ∈ Winner <$> df'.
Proof. by rewrite Hperm. Qed.

Lemma country_panel_Permutation c :
  country_panel (derive codes df) c = country_panel (derive codes df') c.
Proof.
  destruct c as [s|]; [|done].
  destruct (decide (s = "")) as [->|Hs]; [done|].
  destruct (decide (s ∈ Winner <$> df)) as [Hin|Hin].
  - pose proof (proj1 (winner_Permutation s) Hin) as Hin'.
    rewrite (country_panel_winner (derive codes df)) by done.
    rewrite (country_panel_winner (derive codes df')) by done.
    cbn [g_worldcup_df derive]. rewrite wins_of_Permutation. f_equal.
    apply sorted_order_irrelevant. by rewrite Hperm.
  - assert (s ∉ Winner <$> df') as Hin' by (by rewrite <-winner_Permutation).
    rewrite (country_panel_unmatched (derive codes df)) by done.
    by rewrite (country_panel_unmatched (derive codes df')).
Qed.

Lemma highlight_Permutation c :
  highlight (derive codes df) c = highlight (derive codes df') c.
Proof.
  destruct c as [s|]; [|done].
  destruct (decide (s = "")) as [->|Hs]; [done|].
  destruct (decide (s ∈ Winner <$> df)) as [Hin|Hin].
  - pose proof (proj1 (winner_Permutation s) Hin) as Hin'.
    rewrite !highlight_winner by done. by rewrite wins_of_Permutation.
  - assert (s ∉ Winner <$> df') as Hin' by (by rewrite <-winner_Permutation).
    by rewrite !highlight_unmatched.
Qed.

Lemma win_counts_Permutation :
  make_win_counts codes df ≡ₚ make_win_counts codes df'.
Proof.
  apply NoDup_Permutation.
  - eapply NoDup_fmap_1, win_counts_NoDup.
  - eapply NoDup_fmap_1, win_counts_NoDup.
  - intros wc. rewrite !win_counts_elem, wins_of_Permutation. by rewrite Hperm.
Qed.

Lemma year_panel_Permutation y :
  NoDup (Year <$> df) →
  year_panel (derive codes df) y = year_panel (derive codes df') y.
Proof.
  intros Hnd. destruct y as [n|]; [|done].
  destruct (decide (n = 0)) as [->|Hn]; [done|].
  assert (NoDup (Year <$> df')) as Hnd' by (by rewrite <-Hperm).
  destruct (decide (n ∈ Year <$> df)) as [Hin|Hin].
  - apply list_elem_of_fmap in Hin as (r & -> & Hr).
    assert (r ∈ df') as Hr' by (by rewrite <-Hperm).
    rewrite (year_panel_record (derive codes df)) by done.
    by rewrite (year_panel_record (derive codes df')).
  - assert (n ∉ Year <$> df') as Hin' by (by rewrite <-Hperm).
    rewrite (year_panel_unmatched (derive codes df)) by done.
    by rewrite (year_panel_unmatched (derive codes df')).
Qed.
End record_order.

(** X9. Storing the records in another order changes neither the country
    panel nor the highlight trace, and permutes the rows of [win_counts];
    when no two records share a year it does not change the year panel
    either. *)
Theorem record_order_irrelevant (codes : gmap string string) (df df' : list Row)
    (c : option string) (y : option Z) :
  df ≡ₚ df' →
  ∃ fig fig' co yo yo',
    update_dashboard (derive codes df) c y = Ok (fig, co, yo)
    ∧ update_dashboard (derive codes df') c y = Ok (fig', co, yo')
    ∧ drop 1 (data fig) = drop 1 (data fig')
    ∧ make_win_counts codes df ≡ₚ make_win_counts codes df'
    ∧ (NoDup (Year <$> df) → yo = yo').
Proof.
  intros Hperm. eexists _, _, _, _, _. split; [apply update_dashboard_eq|].
  split; [rewrite update_dashboard_eq, <-(country_panel_Permutation codes df df' Hperm); done|].
  split_and!.
  - cbn [data base_figure drop]. by apply highlight_Permutation.
  - by apply win_counts_Permutation.
  - intros Hnd. by apply year_panel_Permutation.
Qed.

Lemma record_order_irrelevant_witness :
  ∃ fig fig' co yo yo',
    update_dashboard
      (derive country_codes
         [mkRow 1958 "Brazil" "Sweden" "5-2" (Some "BRA") (Some "SWE");
          mkRow 1934 "Italy" "Czechoslovakia" "2-1 (a.e.t.)" (Some "ITA") (Some "CZE");
          mkRow 1962 "Brazil" "Czechoslovakia" "3-1" (Some "BRA") (Some "CZE")])
      (Some "Brazil") (Some 1934) = Ok (fig, co, yo)
    ∧ update_dashboard
        (derive country_codes
           [mkRow 1962 "Brazil" "Czechoslovakia" "3-1" (Some "BRA") (Some "CZE");
            mkRow 1934 "Italy" "Czechoslovakia" "2-1 (a.e.t.)" (Some "ITA") (Some "CZE");
            mkRow 1958 "Brazil" "Sweden" "5-2" (Some "BRA") (Some "SWE")])
        (Some "Brazil") (Some 1934) = Ok (fig', co, yo')
    ∧ drop 1 (data fig) = drop 1 (data fig')
    ∧ make_win_counts country_codes
        [mkRow 1958 "Brazil" "Sweden" "5-2" (Some "BRA") (Some "SWE");
         mkRow 1934 "Italy" "Czechoslovakia" "2-1 (a.e.t.)" (Some "ITA") (Some "CZE");
         mkRow 1962 "Brazil" "Czechoslovakia" "3-1" (Some "BRA") (Some "CZE")]
      ≡ₚ make_win_counts country_codes
           [mkRow 1962 "Brazil" "Czechoslovakia" "3-1" (Some "BRA") (Some "CZE");
            mkRow 1934 "Italy" "Czechoslovakia" "2-1 (a.e.t.)" (Some "ITA") (Some "CZE");
            mkRow 1958 "Brazil" "Sweden" "5-2" (Some "BRA") (Some "SWE")]
    ∧ (NoDup (Year <$> [mkRow 1958 "Brazil" "Sweden" "5-2" (Some "BRA") (Some "SWE");
                        mkRow 1934 "Italy" "Czechoslovakia" "2-1 (a.e.t.)" (Some "ITA") (Some "CZE");
                        mkRow 1962 "Brazil" "Czechoslovakia" "3-1" (Some "BRA") (Some "CZE")])
       → yo = yo').
Proof.
  apply (record_order_irrelevant country_codes
           [mkRow 1958 "Brazil" "Sweden" "5-2" (Some "BRA") (Some "SWE");
            mkRow 1934 "Italy" "Czechoslovakia" "2-1 (a.e.t.)" (Some "ITA") (Some "CZE");
            mkRow 1962 "Brazil" "Czechoslovakia" "3-1" (Some "BRA") (Some "CZE")]
           [mkRow 1962 "Brazil" "Czechoslovakia" "3-1" (Some "BRA") (Some "CZE");
            mkRow 1934 "Italy" "Czechoslovakia" "2-1 (a.e.t.)" (Some "ITA") (Some "CZE");
            mkRow 1958 "Brazil" "Sweden" "5-2" (Some "BRA") (Some "SWE")]
           (Some "Brazil") (Some 1934)).
  apply (bool_decide_unpack _). vm_compute. exact I.
Defined.
